(** * Model-gateway action creators (ModelGatewayActions.ts)

    Shallow embedding of the three Redux action creators of
    [experiment-tracking/actions/ModelGatewayActions.ts]:
    [searchModelGatewayRoutesApi], [getModelGatewayRouteApi] and
    [queryModelGatewayRouteApi].

    Each creator evaluates one object literal.  Its property
    initialisers run in source order, so a creator first calls the
    proxy client ([MlflowService.gatewayProxyGet] or
    [MlflowService.gatewayProxyPost]), then [getUUID()], and (for the
    invoke creator only) [performance.now()].  The proxy client, the id
    generator and the clock are used, not defined, by the file; they are
    an interface here and every theorem holds for any behaviour behind
    it. *)

From Stdlib Require Import String List FinFun PrimFloat DecimalString Lia.
From ExtLib Require Import Structures.Monad Data.Monads.StateMonad.
Import ListNotations.
Import MonadNotation.
Local Open Scope monad_scope.
Local Open Scope string_scope.
Local Open Scope list_scope.

Set Implicit Arguments.
Local Set Warnings "-register-all".

(** ** JavaScript values *)

(** A promise is an object; what matters about it here is its identity
    (the reference the proxy client hands back). *)
Record Promise : Type := mkPromise { promise_ref : nat }.

(** The values the creators build and pass around.  Numbers are IEEE
    binary64, as in JavaScript.  An object literal is kept as the list of
    its own properties in the order they are written. *)
Inductive JsValue : Type :=
| JsUndefined
| JsNull
| JsBoolean (b : bool)
| JsNumber (x : float)
| JsString (s : string)
| JsPromise (p : Promise)
| JsArray (elems : list JsValue)
| JsObject (props : list (string * JsValue)).

(** Property read [o.key]: the first own property of that name, and
    [undefined] when there is none. *)
Fixpoint lookup_prop (key : string) (props : list (string * JsValue)) : JsValue :=
  match props with
  | [] => JsUndefined
  | (k, v) :: rest => if String.eqb k key then v else lookup_prop key rest
  end.

Definition get_prop (key : string) (o : JsValue) : JsValue :=
  match o with
  | JsObject props => lookup_prop key props
  | _ => JsUndefined
  end.

(** [Object.keys(o)]. *)
Definition own_keys (o : JsValue) : list string :=
  match o with
  | JsObject props => map fst props
  | _ => []
  end.

(** ** Data model *)

(** [ModelGatewayRoute] is declared in [../sdk/ModelGatewayService]; the
    creators read its [name] only.  Whatever else a route object carries
    is kept as its remaining own properties. *)
Record ModelGatewayRoute : Type := mkRoute {
  name : string;
  route_rest : list (string * JsValue)
}.

(** [ModelGatewayQueryPayload]: a JSON object supplied by the caller,
    forwarded as it is. *)
Definition ModelGatewayQueryPayload : Type := JsValue.

(** An optional [string] parameter ([filter?: string]): an omitted
    argument reads as [undefined]. *)
Definition optional_string (a : option string) : JsValue :=
  match a with
  | Some s => JsString s
  | None => JsUndefined
  end.

(** ** The collaborators *)

(** What the file imports and calls: the proxy client of [MlflowService],
    the correlation-id generator of [ActionUtils], and the browser's
    high-resolution clock. *)
Class MonadGateway (m : Type -> Type) : Type := {
  gatewayProxyGet : JsValue -> m Promise;
  gatewayProxyPost : JsValue -> m Promise;
  getUUID : m string;
  performance_now : m float
}.

(** ** The action creators *)

Section Creators.
Context {m : Type -> Type} {Monad_m : Monad m} {Gateway_m : MonadGateway m}.

Definition SEARCH_MODEL_GATEWAY_ROUTES_API : string :=
  "SEARCH_MODEL_GATEWAY_ROUTES_API".

Definition searchModelGatewayRoutesApi (filter : option string) : m JsValue :=
  payload <- gatewayProxyGet (JsObject [
    ("gateway_path", JsString "api/2.0/gateway/routes/");
    ("json_data", JsObject [("filter", optional_string filter)])
  ]) ;;
  id <- getUUID ;;
  ret (JsObject [
    ("type", JsString SEARCH_MODEL_GATEWAY_ROUTES_API);
    ("payload", JsPromise payload);
    ("meta", JsObject [("id", JsString id)])
  ]).

Definition GET_MODEL_GATEWAY_ROUTE_API : string :=
  "GET_MODEL_GATEWAY_ROUTE_API".

Definition getModelGatewayRouteApi (routeName : string) : m JsValue :=
  payload <- gatewayProxyGet (JsObject [
    ("gateway_path", JsString ("api/2.0/gateway/routes/" ++ routeName));
    ("json_data", JsObject [])
  ]) ;;
  id <- getUUID ;;
  ret (JsObject [
    ("type", JsString GET_MODEL_GATEWAY_ROUTE_API);
    ("payload", JsPromise payload);
    ("meta", JsObject [("id", JsString id)])
  ]).

Definition QUERY_MODEL_GATEWAY_ROUTE_API : string :=
  "QUERY_MODEL_GATEWAY_ROUTE_API".

Definition queryModelGatewayRouteApi
    (route : ModelGatewayRoute) (data : ModelGatewayQueryPayload) : m JsValue :=
  payload <- gatewayProxyPost (JsObject [
    ("gateway_path",
      JsString ("api/2.0/gateway/" ++ name route ++ "/invocations"));
    ("json_data", JsObject [("data", data)])
  ]) ;;
  id <- getUUID ;;
  startTime <- performance_now ;;
  ret (JsObject [
    ("type", JsString QUERY_MODEL_GATEWAY_ROUTE_API);
    ("payload", JsPromise payload);
    ("meta", JsObject [("id", JsString id); ("startTime", JsNumber startTime)])
  ]).
End Creators.

(** ** Running a creator against an environment *)

(** One entry per call made to a collaborator, with what it was given
    and what it answered. *)
Inductive Event : Type :=
| ProxyGet (request : JsValue) (answer : Promise)
| ProxyPost (request : JsValue) (answer : Promise)
| GetUUID (answer : string)
| PerformanceNow (answer : float).

(** The environment: any state [W] and any behaviour of the four
    collaborators on it. *)
Record Environment (W : Type) : Type := mkEnvironment {
  proxy_get : JsValue -> W -> Promise * W;
  proxy_post : JsValue -> W -> Promise * W;
  uuid : W -> string * W;
  clock : W -> float * W
}.

(** The machine state: the environment's state and the history of calls
    so far, oldest first. *)
Record Run (W : Type) : Type := mkRun {
  world : W;
  trace : list Event
}.

(** The action a creator returns, the state it leaves, and the calls it
    added to the history. *)
Definition action_of {W} (c : state (Run W) JsValue) (s : Run W) : JsValue :=
  evalState c s.

Definition after {W} (c : state (Run W) JsValue) (s : Run W) : Run W :=
  execState c s.

Definition emitted {W} (c : state (Run W) JsValue) (s : Run W) : list Event :=
  skipn (length (trace s)) (trace (after c s)).

(** ** Reading a history *)

Inductive Method : Type := GET | POST.

Record HttpCall : Type := mkHttpCall {
  call_method : Method;
  call_request : JsValue;
  call_promise : Promise
}.

(** The calls made to the proxy client, in order. *)
Fixpoint http_calls (tr : list Event) : list HttpCall :=
  match tr with
  | [] => []
  | ProxyGet request p :: rest => mkHttpCall GET request p :: http_calls rest
  | ProxyPost request p :: rest => mkHttpCall POST request p :: http_calls rest
  | _ :: rest => http_calls rest
  end.

(** The answers [getUUID()] gave, in order. *)
Fixpoint uuids (tr : list Event) : list string :=
  match tr with
  | [] => []
  | GetUUID u :: rest => u :: uuids rest
  | _ :: rest => uuids rest
  end.

(** The readings [performance.now()] gave, in order. *)
Fixpoint clock_reads (tr : list Event) : list float :=
  match tr with
  | [] => []
  | PerformanceNow t :: rest => t :: clock_reads rest
  | _ :: rest => clock_reads rest
  end.

(** The request descriptor handed to the proxy client:
    [{ gateway_path, json_data }]. *)
Definition descriptor (path : string) (body : JsValue) : JsValue :=
  JsObject [("gateway_path", JsString path); ("json_data", body)].

(** [action.meta.id]. *)
Definition meta_id (action : JsValue) : JsValue :=
  get_prop "id" (get_prop "meta" action).

(** How a promise has settled. *)
Inductive Settlement : Type :=
| Pending
| Fulfilled (value : JsValue)
| Rejected (reason : JsValue).

(** What a consumer that awaits [v] observes, given how each promise
    settles: a promise gives its own settlement, any other value is
    already fulfilled. *)
Definition await (settle : Promise -> Settlement) (v : JsValue) : Settlement :=
  match v with
  | JsPromise p => settle p
  | _ => Fulfilled v
  end.

(** One call of one of the three creators. *)
Inductive Invocation : Type :=
| Search (filter : option string)
| GetRoute (routeName : string)
| Query (route : ModelGatewayRoute) (data : ModelGatewayQueryPayload).

(** The proxy client, [getUUID] and the clock, run against an
    environment [E] and recorded in the history. *)
Definition call {W A : Type} (f : W -> A * W) (ev : A -> Event) : state (Run W) A :=
  mkState (fun s =>
    let r := f (world s) in
    (fst r, {| world := snd r; trace := trace s ++ [ev (fst r)] |})).

Definition Gateway_run {W} (E : Environment W) : MonadGateway (state (Run W)) := {|
  gatewayProxyGet := fun request => call (proxy_get E request) (ProxyGet request);
  gatewayProxyPost := fun request => call (proxy_post E request) (ProxyPost request);
  getUUID := call (uuid E) GetUUID;
  performance_now := call (clock E) PerformanceNow
|}.

Definition invoke {m} `{Monad m} `{MonadGateway m} (i : Invocation) : m JsValue :=
  match i with
  | Search filter => searchModelGatewayRoutesApi filter
  | GetRoute routeName => getModelGatewayRouteApi routeName
  | Query route data => queryModelGatewayRouteApi route data
  end.

(** A session: invocations made one after the other, and the actions
    they returned. *)
Fixpoint session {m} `{Monad m} `{MonadGateway m} (calls : list Invocation)
    : m (list JsValue) :=
  match calls with
  | [] => ret []
  | i :: rest =>
      a <- invoke i ;;
      others <- session rest ;;
      ret (a :: others)
  end.

(** The calls a whole session added to the history. *)
Definition session_emitted {W} (c : state (Run W) (list JsValue)) (s : Run W)
    : list Event :=
  skipn (length (trace s)) (trace (execState c s)).

(** Two invocations are calls of the same creator. *)
Definition same_creator (i1 i2 : Invocation) : Prop :=
  match i1, i2 with
  | Search _, Search _ => True
  | GetRoute _, GetRoute _ => True
  | Query _ _, Query _ _ => True
  | _, _ => False
  end.


(** What the proxy client is given in a call: the method and the request
    descriptor. *)
Definition sent (h : HttpCall) : Method * JsValue :=
  (call_method h, call_request h).

(** A sample environment for concrete runs: promises are numbered in the
    order the client makes them, [getUUID] counts up in decimal, and the
    clock advances half a millisecond per reading. *)
Record SampleWorld : Type := mkSampleWorld {
  promises_made : nat;
  uuids_given : nat;
  now : float
}.

Definition sample_client (request : JsValue) (w : SampleWorld) : Promise * SampleWorld :=
  (mkPromise (promises_made w),
   {| promises_made := S (promises_made w);
      uuids_given := uuids_given w;
      now := now w |}).

Definition sample_env : Environment SampleWorld := {|
  proxy_get := sample_client;
  proxy_post := sample_client;
  uuid := fun w =>
    (NilEmpty.string_of_uint (Nat.to_uint (uuids_given w)),
     {| promises_made := promises_made w;
        uuids_given := S (uuids_given w);
        now := now w |});
  clock := fun w =>
    (now w,
     {| promises_made := promises_made w;
        uuids_given := uuids_given w;
        now := (now w + 0.5)%float |})
|}.

Definition sample_start : Run SampleWorld :=
  {| world := {| promises_made := 0; uuids_given := 0; now := 1000%float |};
     trace := [] |}.

Definition sample_payload : ModelGatewayQueryPayload :=
  JsObject [("prompt", JsString "hi")].

Definition chat_route : ModelGatewayRoute :=
  mkRoute "chat" [("route_type", JsString "llm/v1/chat")].

(** The states of a sample session: after a list-routes call, and after
    a get-route call that follows it. *)
Definition after_search : Run SampleWorld :=
  after (invoke (H0 := Gateway_run sample_env) (Search (Some "chat"))) sample_start.

Definition after_get : Run SampleWorld :=
  after (invoke (H0 := Gateway_run sample_env) (GetRoute "chat")) after_search.

(** A sample session: list the routes, get one, invoke it. *)
Definition sample_session : list Invocation :=
  [Search (Some "chat"); GetRoute "chat"; Query chat_route sample_payload].

(** ** History lemmas *)

Lemma skipn_length_app {A} (l l' : list A) : skipn (length l) (l ++ l') = l'.
Proof. induction l as [| x l IH]; simpl; auto. Qed.

Lemma uuids_app (tr1 tr2 : list Event) : uuids (tr1 ++ tr2) = uuids tr1 ++ uuids tr2.
Proof.
  induction tr1 as [| ev tr1 IH]; simpl; [reflexivity |].
  destruct ev; simpl; rewrite ?IH; reflexivity.
Qed.

Lemma http_calls_app (tr1 tr2 : list Event) :
  http_calls (tr1 ++ tr2) = http_calls tr1 ++ http_calls tr2.
Proof.
  induction tr1 as [| ev tr1 IH]; simpl; [reflexivity |].
  destruct ev; simpl; rewrite ?IH; reflexivity.
Qed.


Lemma flat_map_singleton {A B} (f : A -> B) (l : list A) :
  flat_map (fun a => [f a]) l = map f l.
Proof. induction l as [| a l IH]; simpl; [| rewrite IH]; reflexivity. Qed.

(** ** String lemmas for the template literals *)

Lemma length_append (s1 s2 : string) :
  String.length (s1 ++ s2)%string = String.length s1 + String.length s2.
Proof. induction s1 as [| c s1 IH]; simpl; [| rewrite IH]; reflexivity. Qed.

(** A common tail can be cancelled. *)
Lemma append_inv_tail (tail s1 s2 : string) :
  (s1 ++ tail)%string = (s2 ++ tail)%string -> s1 = s2.
Proof.
  revert s2. induction s1 as [| c1 s1 IH]; intros [| c2 s2] H.
  - reflexivity.
  - apply (f_equal String.length) in H. simpl in H.
    rewrite length_append in H. lia.
  - apply (f_equal String.length) in H. simpl in H.
    rewrite length_append in H. lia.
  - simpl in H. injection H as Hc Hs. rewrite Hc, (IH _ Hs). reflexivity.
Qed.

(** ** What one run of each creator does *)

Section Runs.
Variable W : Type.
Variable E : Environment W.

Local Abbreviation M := (state (Run W)).
Let G : MonadGateway M := Gateway_run E.
#[local] Existing Instance G.

Lemma search_run (filter : option string) (s : Run W) :
  let request :=
    descriptor "api/2.0/gateway/routes/"
               (JsObject [("filter", optional_string filter)]) in
  let r1 := proxy_get E request (world s) in
  let r2 := uuid E (snd r1) in
  runState (searchModelGatewayRoutesApi (m := M) filter) s
  = (JsObject [("type", JsString "SEARCH_MODEL_GATEWAY_ROUTES_API");
               ("payload", JsPromise (fst r1));
               ("meta", JsObject [("id", JsString (fst r2))])],
     {| world := snd r2;
        trace := trace s ++ [ProxyGet request (fst r1); GetUUID (fst r2)] |}).
Proof. cbn. rewrite <- app_assoc. reflexivity. Qed.

Lemma get_run (routeName : string) (s : Run W) :
  let request :=
    descriptor ("api/2.0/gateway/routes/" ++ routeName) (JsObject []) in
  let r1 := proxy_get E request (world s) in
  let r2 := uuid E (snd r1) in
  runState (getModelGatewayRouteApi (m := M) routeName) s
  = (JsObject [("type", JsString "GET_MODEL_GATEWAY_ROUTE_API");
               ("payload", JsPromise (fst r1));
               ("meta", JsObject [("id", JsString (fst r2))])],
     {| world := snd r2;
        trace := trace s ++ [ProxyGet request (fst r1); GetUUID (fst r2)] |}).
Proof. cbn. rewrite <- app_assoc. reflexivity. Qed.

Lemma query_run (route : ModelGatewayRoute) (data : ModelGatewayQueryPayload)
    (s : Run W) :
  let request :=
    descriptor ("api/2.0/gateway/" ++ name route ++ "/invocations")
               (JsObject [("data", data)]) in
  let r1 := proxy_post E request (world s) in
  let r2 := uuid E (snd r1) in
  let r3 := clock E (snd r2) in
  runState (queryModelGatewayRouteApi (m := M) route data) s
  = (JsObject [("type", JsString "QUERY_MODEL_GATEWAY_ROUTE_API");
               ("payload", JsPromise (fst r1));
               ("meta", JsObject [("id", JsString (fst r2));
                                  ("startTime", JsNumber (fst r3))])],
     {| world := snd r3;
        trace := trace s ++ [ProxyPost request (fst r1); GetUUID (fst r2);
                             PerformanceNow (fst r3)] |}).
Proof. cbn. rewrite <- !app_assoc. reflexivity. Qed.

(** A run only appends to the history. *)
Lemma emitted_of_run (c : M JsValue) (s : Run W) a w evs :
  runState c s = (a, {| world := w; trace := trace s ++ evs |}) ->
  action_of c s = a /\ trace (after c s) = trace s ++ evs /\ emitted c s = evs.
Proof.
  intros H. unfold action_of, evalState, emitted, after, execState.
  rewrite H. cbn. rewrite skipn_length_app. auto.
Qed.

(** Replace the action, final history and emitted calls of a run by
    what its run lemma gives. *)
Ltac use_run H :=
  let R := fresh "R" in
  pose proof H as R; cbv zeta in R;
  apply emitted_of_run in R;
  let Ha := fresh "Ha" in
  let Ht := fresh "Ht" in
  let He := fresh "He" in
  destruct R as (Ha & Ht & He);
  rewrite ?Ha, ?Ht, ?He; clear Ha Ht He.

(** Every invocation makes one call to the proxy client, then asks
    [getUUID] once and puts its answer in [meta.id]. *)
Lemma invoke_shape (i : Invocation) (s : Run W) :
  exists call u times,
    emitted (invoke (m := M) i) s = call :: GetUUID u :: times
    /\ trace (after (invoke (m := M) i) s)
       = trace s ++ call :: GetUUID u :: times
    /\ uuids [call] = [] /\ uuids times = []
    /\ length (http_calls [call]) = 1 /\ http_calls times = []
    /\ meta_id (action_of (invoke (m := M) i) s) = JsString u.
Proof.
  destruct i as [filter | routeName | route data]; cbn [invoke].
  - use_run (search_run filter s). do 3 eexists. repeat split; reflexivity.
  - use_run (get_run routeName s). do 3 eexists. repeat split; reflexivity.
  - use_run (query_run route data s). do 3 eexists. repeat split; reflexivity.
Qed.

(** A session is its first invocation followed by the rest. *)
Lemma session_cons (i : Invocation) (rest : list Invocation) (s : Run W) :
  runState (session (m := M) (i :: rest)) s
  = (action_of (invoke i) s :: evalState (session rest) (after (invoke i) s),
     execState (session rest) (after (invoke i) s)).
Proof.
  unfold action_of, after, evalState, execState.
  change (runState (session (m := M) (i :: rest)) s)
    with (let (a, s') := runState (invoke (m := M) i) s in
          let (others, s'') := runState (session (m := M) rest) s' in
          (a :: others, s'')).
  destruct (runState (invoke i) s) as [a s']. cbn [fst snd].
  destruct (runState (session rest) s') as [others s'']. reflexivity.
Qed.

(** The ids of a session's actions are the answers [getUUID] gave during
    the session, in order, and the session makes one call to the proxy
    client per invocation. *)
Lemma session_ids (calls : list Invocation) :
  forall s : Run W,
  exists evs,
    trace (execState (session (m := M) calls) s) = trace s ++ evs
    /\ map meta_id (evalState (session (m := M) calls) s)
       = map JsString (uuids evs)
    /\ length (http_calls evs) = length calls.
Proof.
  induction calls as [| i rest IH]; intros s.
  - exists []. cbn. rewrite app_nil_r. auto.
  - destruct (invoke_shape i s)
      as (c & u & t & _ & Ht & Hc & Htm & Hone & Hnone & Hid).
    destruct (IH (after (invoke i) s)) as (evs & Htr & Hids & Hlen).
    exists ((c :: GetUUID u :: t) ++ evs).
    unfold evalState, execState in *. rewrite session_cons. cbn [fst snd].
    unfold evalState, execState. rewrite Htr, Ht, app_assoc.
    split; [reflexivity |].
    change (c :: GetUUID u :: t) with ([c] ++ [GetUUID u] ++ t).
    split.
    + cbn [map]. rewrite Hids, Hid, !uuids_app, Hc, Htm. reflexivity.
    + rewrite !http_calls_app, !length_app, Hone, Hnone, Hlen. reflexivity.
Qed.

(** X9: in a session of any length, if [getUUID] never gave the same answer
    twice in the history up to the end of the session, no two of the
    session's actions share their [meta.id]. *)
Lemma session_ids_unique (calls : list Invocation) (s : Run W) :
  NoDup (uuids (trace (execState (session (m := M) calls) s))) ->
  NoDup (map meta_id (evalState (session (m := M) calls) s)).
Proof.
  intros Hfresh.
  destruct (session_ids calls s) as (evs & Htr & Hids & _).
  rewrite Htr, uuids_app in Hfresh. apply NoDup_app_remove_l in Hfresh.
  rewrite Hids. apply Injective_map_NoDup; [| exact Hfresh].
  intros x y Hxy. injection Hxy. auto.
Qed.

(** ** The requests *)

(** C1: for every route and query payload, the invoke-route creator makes a
    POST through the proxy client with gateway path
    [api/2.0/gateway/{route.name}/invocations] and JSON body
    [{data: payload}], and the promise of that call is the action's payload;
    with route [{name:"chat"}] and payload [{prompt:"hi"}] the path is
    [api/2.0/gateway/chat/invocations] and the body [{data:{prompt:"hi"}}]. *)
Theorem query_posts_to_route_invocations :
  (forall (route : ModelGatewayRoute) (data : ModelGatewayQueryPayload) (s : Run W),
      let c := queryModelGatewayRouteApi (m := M) route data in
      let request :=
        descriptor ("api/2.0/gateway/" ++ name route ++ "/invocations")
                   (JsObject [("data", data)]) in
      let p := fst (proxy_post E request (world s)) in
      http_calls (emitted c s) = [mkHttpCall POST request p]
      /\ get_prop "payload" (action_of c s) = JsPromise p)
  /\ (forall (others : list (string * JsValue)) (s : Run W),
      let c := queryModelGatewayRouteApi (m := M) (mkRoute "chat" others)
                 (JsObject [("prompt", JsString "hi")]) in
      map (fun h => (call_method h, call_request h)) (http_calls (emitted c s))
      = [(POST,
          JsObject [("gateway_path", JsString "api/2.0/gateway/chat/invocations");
                    ("json_data",
                     JsObject [("data", JsObject [("prompt", JsString "hi")])])])]).
Proof.
  split.
  - intros route data s c request p. subst c.
    use_run (query_run route data s). split; reflexivity.
  - intros others s c. subst c.
    use_run (query_run (mkRoute "chat" others)
               (JsObject [("prompt", JsString "hi")]) s).
    reflexivity.
Qed.

(** C2: for every filter string, the list-routes creator makes a GET through
    the proxy client with gateway path [api/2.0/gateway/routes/] and a JSON
    body holding that very string under the key [filter]; the promise of
    that call is the action's payload. *)
Theorem search_gets_routes_with_filter (filter : string) (s : Run W) :
  let c := searchModelGatewayRoutesApi (m := M) (Some filter) in
  let request :=
    JsObject [("gateway_path", JsString "api/2.0/gateway/routes/");
              ("json_data", JsObject [("filter", JsString filter)])] in
  let p := fst (proxy_get E request (world s)) in
  http_calls (emitted c s) = [mkHttpCall GET request p]
  /\ get_prop "filter" (get_prop "json_data" request) = JsString filter
  /\ get_prop "payload" (action_of c s) = JsPromise p.
Proof.
  intros c request p. subst c.
  use_run (search_run (Some filter) s). repeat split; reflexivity.
Qed.

(** C3: for every route name, the get-route creator makes a GET through the
    proxy client with gateway path [api/2.0/gateway/routes/{name}], and the
    promise of that call is the action's payload; the name ["chat"] gives
    the path [api/2.0/gateway/routes/chat]. *)
Theorem get_route_gets_named_route :
  (forall (routeName : string) (s : Run W),
      let c := getModelGatewayRouteApi (m := M) routeName in
      let request :=
        descriptor ("api/2.0/gateway/routes/" ++ routeName) (JsObject []) in
      let p := fst (proxy_get E request (world s)) in
      http_calls (emitted c s) = [mkHttpCall GET request p]
      /\ get_prop "payload" (action_of c s) = JsPromise p)
  /\ (forall (s : Run W),
        map (fun h => (call_method h, get_prop "gateway_path" (call_request h)))
            (http_calls (emitted (getModelGatewayRouteApi (m := M) "chat") s))
        = [(GET, JsString "api/2.0/gateway/routes/chat")]).
Proof.
  split.
  - intros routeName s c request p. subst c.
    use_run (get_run routeName s). split; reflexivity.
  - intros s. use_run (get_run "chat" s). reflexivity.
Qed.

(** C9: the request of the get-route creator always carries the empty
    object [{}] as [json_data]; the route name is in the path only. *)
Theorem get_route_sends_empty_body (routeName : string) (s : Run W) :
  let c := getModelGatewayRouteApi (m := M) routeName in
  map (fun h => get_prop "json_data" (call_request h)) (http_calls (emitted c s))
  = [JsObject []]
  /\ map call_request (http_calls (emitted c s))
     = [JsObject [("gateway_path", JsString ("api/2.0/gateway/routes/" ++ routeName));
                  ("json_data", JsObject [])]].
Proof.
  intros c. subst c. use_run (get_run routeName s). split; reflexivity.
Qed.

(** C10: with the filter argument omitted, the list-routes creator still
    makes its one GET, and the request's [json_data] is an object whose
    only key, [filter], is bound to [undefined]. *)
Theorem search_without_filter_sends_undefined (s : Run W) :
  let c := searchModelGatewayRoutesApi (m := M) None in
  let request :=
    JsObject [("gateway_path", JsString "api/2.0/gateway/routes/");
              ("json_data", JsObject [("filter", JsUndefined)])] in
  http_calls (emitted c s)
  = [mkHttpCall GET request (fst (proxy_get E request (world s)))]
  /\ own_keys (get_prop "json_data" request) = ["filter"]
  /\ get_prop "payload" (action_of c s)
     = JsPromise (fst (proxy_get E request (world s))).
Proof.
  intros c request. subst c. use_run (search_run None s).
  repeat split; reflexivity.
Qed.

(** ** The action envelope *)

(** C7: for every input, each creator calls the proxy client exactly once
    and returns an object with the own properties [type], [payload] and
    [meta], whose [type] is the creator's exported constant and whose
    [payload] is the promise of that one call. *)
Theorem one_call_and_typed_envelope :
  (forall filter (s : Run W),
      let c := searchModelGatewayRoutesApi (m := M) filter in
      length (http_calls (emitted c s)) = 1
      /\ own_keys (action_of c s) = ["type"; "payload"; "meta"]
      /\ get_prop "type" (action_of c s) = JsString SEARCH_MODEL_GATEWAY_ROUTES_API
      /\ SEARCH_MODEL_GATEWAY_ROUTES_API = "SEARCH_MODEL_GATEWAY_ROUTES_API"
      /\ map (fun h => JsPromise (call_promise h)) (http_calls (emitted c s))
         = [get_prop "payload" (action_of c s)])
  /\ (forall routeName (s : Run W),
      let c := getModelGatewayRouteApi (m := M) routeName in
      length (http_calls (emitted c s)) = 1
      /\ own_keys (action_of c s) = ["type"; "payload"; "meta"]
      /\ get_prop "type" (action_of c s) = JsString GET_MODEL_GATEWAY_ROUTE_API
      /\ GET_MODEL_GATEWAY_ROUTE_API = "GET_MODEL_GATEWAY_ROUTE_API"
      /\ map (fun h => JsPromise (call_promise h)) (http_calls (emitted c s))
         = [get_prop "payload" (action_of c s)])
  /\ (forall route data (s : Run W),
      let c := queryModelGatewayRouteApi (m := M) route data in
      length (http_calls (emitted c s)) = 1
      /\ own_keys (action_of c s) = ["type"; "payload"; "meta"]
      /\ get_prop "type" (action_of c s) = JsString QUERY_MODEL_GATEWAY_ROUTE_API
      /\ QUERY_MODEL_GATEWAY_ROUTE_API = "QUERY_MODEL_GATEWAY_ROUTE_API"
      /\ map (fun h => JsPromise (call_promise h)) (http_calls (emitted c s))
         = [get_prop "payload" (action_of c s)]).
Proof.
  split; [| split].
  - intros filter s c. subst c. use_run (search_run filter s).
    repeat split; reflexivity.
  - intros routeName s c. subst c. use_run (get_run routeName s).
    repeat split; reflexivity.
  - intros route data s c. subst c. use_run (query_run route data s).
    repeat split; reflexivity.
Qed.

(** C5: the action of the invoke-route creator has [meta.startTime], set to
    the reading [performance.now()] gave during creation (its only reading,
    taken after the proxy call and [getUUID]); the actions of the list-routes
    and get-route creators have a [meta] whose only key is [id], and
    creating them does not read the clock. *)
Theorem start_time_only_on_query :
  (forall route data (s : Run W),
      let c := queryModelGatewayRouteApi (m := M) route data in
      let request :=
        descriptor ("api/2.0/gateway/" ++ name route ++ "/invocations")
                   (JsObject [("data", data)]) in
      let w := snd (uuid E (snd (proxy_post E request (world s)))) in
      let meta := get_prop "meta" (action_of c s) in
      clock_reads (emitted c s) = [fst (clock E w)]
      /\ get_prop "startTime" meta = JsNumber (fst (clock E w))
      /\ own_keys meta = ["id"; "startTime"])
  /\ (forall filter (s : Run W),
      let c := searchModelGatewayRoutesApi (m := M) filter in
      let meta := get_prop "meta" (action_of c s) in
      own_keys meta = ["id"]
      /\ get_prop "startTime" meta = JsUndefined
      /\ clock_reads (emitted c s) = [])
  /\ (forall routeName (s : Run W),
      let c := getModelGatewayRouteApi (m := M) routeName in
      let meta := get_prop "meta" (action_of c s) in
      own_keys meta = ["id"]
      /\ get_prop "startTime" meta = JsUndefined
      /\ clock_reads (emitted c s) = []).
Proof.
  split; [| split].
  - intros route data s c request w meta. subst c meta.
    use_run (query_run route data s). repeat split; reflexivity.
  - intros filter s c meta. subst c meta. use_run (search_run filter s).
    repeat split; reflexivity.
  - intros routeName s c meta. subst c meta. use_run (get_run routeName s).
    repeat split; reflexivity.
Qed.

(** C6: no creator handles errors itself: for every invocation the proxy
    client is called once, the action's payload is the very promise that
    call returned, and nothing else is done but the [getUUID] call (and the
    clock reading); so however that promise settles, rejected included, a
    consumer of the payload sees the same settlement. *)
Theorem payload_is_the_client_promise (i : Invocation) (s : Run W) :
  exists h u times,
    emitted (invoke (m := M) i) s
    = match call_method h with
      | GET => ProxyGet (call_request h) (call_promise h)
      | POST => ProxyPost (call_request h) (call_promise h)
      end :: GetUUID u :: map PerformanceNow times
    /\ http_calls (emitted (invoke (m := M) i) s) = [h]
    /\ get_prop "payload" (action_of (invoke (m := M) i) s)
       = JsPromise (call_promise h)
    /\ forall settle : Promise -> Settlement,
         await settle (get_prop "payload" (action_of (invoke (m := M) i) s))
         = settle (call_promise h).
Proof.
  destruct i as [filter | routeName | route data]; cbn [invoke].
  - use_run (search_run filter s).
    eexists (mkHttpCall GET _ _), _, []. repeat split; reflexivity.
  - use_run (get_run routeName s).
    eexists (mkHttpCall GET _ _), _, []. repeat split; reflexivity.
  - use_run (query_run route data s).
    eexists (mkHttpCall POST _ _), _, [_]. repeat split; reflexivity.
Qed.

(** ** Dependence on the arguments *)

(** C8: the invoke-route creator reads only [name] from its route: two
    routes of equal [name] give, with the same query payload, the same
    request descriptor (path and JSON body), in whatever state each call is
    made. *)
Theorem query_depends_on_route_name_only
    (route1 route2 : ModelGatewayRoute) (data : ModelGatewayQueryPayload)
    (s1 s2 : Run W) :
  name route1 = name route2 ->
  map call_request
      (http_calls (emitted (queryModelGatewayRouteApi (m := M) route1 data) s1))
  = map call_request
      (http_calls (emitted (queryModelGatewayRouteApi (m := M) route2 data) s2)).
Proof.
  intros Hname.
  use_run (query_run route1 data s1). use_run (query_run route2 data s2).
  cbn. rewrite Hname. reflexivity.
Qed.

(** ** Correlation ids *)

(** C4: take any two invocations of the creators, the second made later in
    the same history than the first.  If [getUUID] never gave the same
    answer twice in that history, the two actions have different
    [meta.id]. *)
Theorem distinct_invocations_distinct_ids
    (i1 i2 : Invocation) (s1 s2 : Run W) (between : list Event) :
  trace s2 = trace (after (invoke (m := M) i1) s1) ++ between ->
  NoDup (uuids (trace (after (invoke (m := M) i2) s2))) ->
  meta_id (action_of (invoke (m := M) i1) s1)
  <> meta_id (action_of (invoke (m := M) i2) s2).
Proof.
  intros Hlater Hfresh.
  destruct (invoke_shape i1 s1)
    as (c1 & u1 & t1 & _ & Ht1 & Hc1 & Htm1 & _ & _ & Hid1).
  destruct (invoke_shape i2 s2)
    as (c2 & u2 & t2 & _ & Ht2 & Hc2 & Htm2 & _ & _ & Hid2).
  rewrite Hid1, Hid2. intros Heq. injection Heq as Heq.
  rewrite Ht2, Hlater, Ht1 in Hfresh.
  change (c1 :: GetUUID u1 :: t1) with ([c1] ++ GetUUID u1 :: t1) in Hfresh.
  change (c2 :: GetUUID u2 :: t2) with ([c2] ++ GetUUID u2 :: t2) in Hfresh.
  change (GetUUID u1 :: t1) with ([GetUUID u1] ++ t1) in Hfresh.
  change (GetUUID u2 :: t2) with ([GetUUID u2] ++ t2) in Hfresh.
  rewrite !uuids_app, Hc1, Hc2, Htm1, Htm2 in Hfresh.
  cbn [uuids app] in Hfresh.
  rewrite <- !app_assoc in Hfresh. cbn [app] in Hfresh.
  apply NoDup_remove_2 in Hfresh. apply Hfresh.
  rewrite !in_app_iff. right. right. left. symmetry. exact Heq.
Qed.

(** ** What a request tells *)

(** X1: every request a creator hands to the proxy client is an object with
    exactly the keys [gateway_path] and [json_data], and its path is a string
    that begins with [api/2.0/gateway/], whatever the arguments. *)
Theorem every_request_is_under_the_gateway_api (i : Invocation) (s : Run W) :
  Forall (fun h =>
            own_keys (call_request h) = ["gateway_path"; "json_data"]
            /\ exists path,
                 get_prop "gateway_path" (call_request h) = JsString path
                 /\ prefix "api/2.0/gateway/" path = true)
         (http_calls (emitted (invoke (m := M) i) s)).
Proof.
  destruct i as [filter | routeName | route data]; cbn [invoke].
  - use_run (search_run filter s).
    repeat constructor. eexists. split; reflexivity.
  - use_run (get_run routeName s).
    repeat constructor. eexists. split; reflexivity.
  - use_run (query_run route data s).
    repeat constructor. eexists. split; [reflexivity |].
    cbn. destruct (name route ++ "/invocations")%string; reflexivity.
Qed.

(** X2: the request of the get-route creator determines the route name: two
    names that give the same request are the same name. *)
Theorem get_route_request_determines_name (name1 name2 : string) (s1 s2 : Run W) :
  map call_request
      (http_calls (emitted (getModelGatewayRouteApi (m := M) name1) s1))
  = map call_request
      (http_calls (emitted (getModelGatewayRouteApi (m := M) name2) s2)) ->
  name1 = name2.
Proof.
  use_run (get_run name1 s1). use_run (get_run name2 s2).
  cbn [http_calls map call_request descriptor]. intros H.
  injection H as H. exact H.
Qed.

(** X3: the request of the invoke-route creator determines the route's name
    and the query payload: two invocations that give the same request have
    routes of the same name and the same payload. *)
Theorem query_request_determines_name_and_data
    (route1 route2 : ModelGatewayRoute) (data1 data2 : ModelGatewayQueryPayload)
    (s1 s2 : Run W) :
  map call_request
      (http_calls (emitted (queryModelGatewayRouteApi (m := M) route1 data1) s1))
  = map call_request
      (http_calls (emitted (queryModelGatewayRouteApi (m := M) route2 data2) s2)) ->
  name route1 = name route2 /\ data1 = data2.
Proof.
  use_run (query_run route1 data1 s1). use_run (query_run route2 data2 s2).
  cbn [http_calls map call_request descriptor]. intros H.
  injection H as Hpath Hdata. split; [| exact Hdata].
  exact (append_inv_tail _ _ _ Hpath).
Qed.

(** X4: the request of the list-routes creator determines its argument: two
    calls that give the same request were given the same filter, and an
    omitted filter is told apart from every filter string, the empty one
    included. *)
Theorem search_request_determines_filter (filter1 filter2 : option string)
    (s1 s2 : Run W) :
  map call_request
      (http_calls (emitted (searchModelGatewayRoutesApi (m := M) filter1) s1))
  = map call_request
      (http_calls (emitted (searchModelGatewayRoutesApi (m := M) filter2) s2)) ->
  filter1 = filter2.
Proof.
  use_run (search_run filter1 s1). use_run (search_run filter2 s2).
  cbn [http_calls map call_request descriptor]. intros H.
  injection H as H.
  destruct filter1, filter2; cbn in H; congruence.
Qed.

(** X5: what the proxy client is given tells which creator made the call: two
    invocations whose calls have the same method and the same request are
    invocations of the same creator. *)
Theorem call_identifies_creator (i1 i2 : Invocation) (s1 s2 : Run W) :
  map sent (http_calls (emitted (invoke (m := M) i1) s1))
  = map sent (http_calls (emitted (invoke (m := M) i2) s2)) ->
  same_creator i1 i2.
Proof.
  destruct i1 as [f1 | n1 | r1 d1], i2 as [f2 | n2 | r2 d2]; cbn [invoke];
    [ use_run (search_run f1 s1); use_run (search_run f2 s2)
    | use_run (search_run f1 s1); use_run (get_run n2 s2)
    | use_run (search_run f1 s1); use_run (query_run r2 d2 s2)
    | use_run (get_run n1 s1); use_run (search_run f2 s2)
    | use_run (get_run n1 s1); use_run (get_run n2 s2)
    | use_run (get_run n1 s1); use_run (query_run r2 d2 s2)
    | use_run (query_run r1 d1 s1); use_run (search_run f2 s2)
    | use_run (query_run r1 d1 s1); use_run (get_run n2 s2)
    | use_run (query_run r1 d1 s1); use_run (query_run r2 d2 s2) ];
    cbn [http_calls map sent call_method call_request descriptor same_creator];
    intros H; solve [exact I | discriminate H].
Qed.

(** X6: the [type] of an action tells which creator made it: the three
    exported constants are pairwise different. *)
Theorem action_type_identifies_creator (i1 i2 : Invocation) (s1 s2 : Run W) :
  get_prop "type" (action_of (invoke (m := M) i1) s1)
  = get_prop "type" (action_of (invoke (m := M) i2) s2) ->
  same_creator i1 i2.
Proof.
  destruct i1 as [f1 | n1 | r1 d1], i2 as [f2 | n2 | r2 d2]; cbn [invoke];
    [ use_run (search_run f1 s1); use_run (search_run f2 s2)
    | use_run (search_run f1 s1); use_run (get_run n2 s2)
    | use_run (search_run f1 s1); use_run (query_run r2 d2 s2)
    | use_run (get_run n1 s1); use_run (search_run f2 s2)
    | use_run (get_run n1 s1); use_run (get_run n2 s2)
    | use_run (get_run n1 s1); use_run (query_run r2 d2 s2)
    | use_run (query_run r1 d1 s1); use_run (search_run f2 s2)
    | use_run (query_run r1 d1 s1); use_run (get_run n2 s2)
    | use_run (query_run r1 d1 s1); use_run (query_run r2 d2 s2) ];
    cbn; intros H; solve [exact I | discriminate H].
Qed.

(** X7: the get-route creator asks for the very path of the list-routes
    creator exactly when the route name is the empty string; the name is not
    checked. *)
Theorem get_route_path_is_list_path_iff_empty_name
    (routeName : string) (filter : option string) (s1 s2 : Run W) :
  map (fun h => get_prop "gateway_path" (call_request h))
      (http_calls (emitted (getModelGatewayRouteApi (m := M) routeName) s1))
  = map (fun h => get_prop "gateway_path" (call_request h))
      (http_calls (emitted (searchModelGatewayRoutesApi (m := M) filter) s2))
  <-> routeName = "".
Proof.
  use_run (get_run routeName s1). use_run (search_run filter s2).
  cbn [http_calls map call_request descriptor get_prop lookup_prop String.eqb
       Ascii.eqb Bool.eqb].
  split; intros H; [injection H as H; exact H | rewrite H; reflexivity].
Qed.

(** ** Sessions *)

Lemma invoke_appends (i : Invocation) (s : Run W) :
  trace (after (invoke (m := M) i) s) = trace s ++ emitted (invoke (m := M) i) s.
Proof.
  destruct (invoke_shape i s) as (c & u & t & He & Ht & _). rewrite He. exact Ht.
Qed.

Lemma session_appends (calls : list Invocation) (s : Run W) :
  trace (execState (session (m := M) calls) s)
  = trace s ++ session_emitted (session (m := M) calls) s.
Proof.
  destruct (session_ids calls s) as (evs & Htr & _).
  unfold session_emitted. rewrite Htr, skipn_length_app. reflexivity.
Qed.

Lemma session_emitted_cons (i : Invocation) (rest : list Invocation) (s : Run W) :
  session_emitted (session (m := M) (i :: rest)) s
  = emitted (invoke (m := M) i) s
    ++ session_emitted (session (m := M) rest) (after (invoke (m := M) i) s).
Proof.
  unfold session_emitted at 1. unfold execState. rewrite session_cons. cbn [snd].
  fold (execState (session (m := M) rest) (after (invoke (m := M) i) s)).
  rewrite session_appends, invoke_appends, <- app_assoc, skipn_length_app.
  reflexivity.
Qed.

(** Whatever is read off a history piecewise, and agrees with something
    read off the action for each single invocation, agrees for a whole
    session. *)
Lemma session_observe {X : Type}
    (of_events : list Event -> list X) (of_action : JsValue -> list X) :
  of_events [] = [] ->
  (forall tr1 tr2, of_events (tr1 ++ tr2) = of_events tr1 ++ of_events tr2) ->
  (forall i (s : Run W),
      of_events (emitted (invoke (m := M) i) s)
      = of_action (action_of (invoke (m := M) i) s)) ->
  forall calls (s : Run W),
    of_events (session_emitted (session (m := M) calls) s)
    = flat_map of_action (evalState (session (m := M) calls) s).
Proof.
  intros Hnil Happ Hone. induction calls as [| i rest IH]; intros s.
  - unfold session_emitted. cbn. rewrite skipn_all. exact Hnil.
  - rewrite session_emitted_cons, Happ, Hone, IH.
    unfold evalState. rewrite session_cons. reflexivity.
Qed.

Lemma session_length (calls : list Invocation) :
  forall s : Run W, length (evalState (session (m := M) calls) s) = length calls.
Proof.
  induction calls as [| i rest IH]; intros s; [reflexivity |].
  unfold evalState. rewrite session_cons. cbn [fst length].
  rewrite IH. reflexivity.
Qed.

(** X8: in a session, the [meta.id] of the actions are the answers [getUUID]
    gave during the session, in the order of the invocations, and the session
    makes as many calls to the proxy client as it has invocations and returns
    as many actions. *)
Theorem session_ids_are_the_uuids_in_order (calls : list Invocation) (s : Run W) :
  map meta_id (evalState (session (m := M) calls) s)
  = map JsString (uuids (session_emitted (session (m := M) calls) s))
  /\ length (http_calls (session_emitted (session (m := M) calls) s)) = length calls
  /\ length (evalState (session (m := M) calls) s) = length calls.
Proof.
  destruct (session_ids calls s) as (evs & Htr & Hids & Hlen).
  unfold session_emitted. rewrite Htr, skipn_length_app.
  repeat split; [exact Hids | exact Hlen | apply session_length].
Qed.

(** X10: in a session, the payloads of the actions are the promises the
    proxy client returned during the session, one per call, in order. *)
Theorem session_payloads_are_the_client_promises
    (calls : list Invocation) (s : Run W) :
  map (get_prop "payload") (evalState (session (m := M) calls) s)
  = map (fun h => JsPromise (call_promise h))
        (http_calls (session_emitted (session (m := M) calls) s)).
Proof.
  rewrite <- flat_map_singleton. symmetry.
  apply (session_observe
           (fun tr => map (fun h => JsPromise (call_promise h)) (http_calls tr))
           (fun a => [get_prop "payload" a])).
  - reflexivity.
  - intros tr1 tr2. rewrite http_calls_app, map_app. reflexivity.
  - intros [filter | routeName | route data] s0; cbn [invoke].
    + use_run (search_run filter s0). reflexivity.
    + use_run (get_run routeName s0). reflexivity.
    + use_run (query_run route data s0). reflexivity.
Qed.

End Runs.

(** ** Concrete runs in the sample environment *)

Example sample_query_run :
  runState (queryModelGatewayRouteApi (Gateway_m := Gateway_run sample_env)
              chat_route sample_payload) sample_start
  = (JsObject [("type", JsString "QUERY_MODEL_GATEWAY_ROUTE_API");
               ("payload", JsPromise (mkPromise 0));
               ("meta", JsObject [("id", JsString "0");
                                  ("startTime", JsNumber 1000%float)])],
     {| world := {| promises_made := 1; uuids_given := 1; now := 1000.5%float |};
        trace :=
          [ProxyPost
             (JsObject [("gateway_path", JsString "api/2.0/gateway/chat/invocations");
                        ("json_data", JsObject [("data", sample_payload)])])
             (mkPromise 0);
           GetUUID "0";
           PerformanceNow 1000%float] |}).
Proof. vm_compute. reflexivity. Qed.

Lemma query_depends_on_route_name_only_witness :
  name chat_route = name (mkRoute "chat" [])
  /\ map call_request
       (http_calls
          (emitted (queryModelGatewayRouteApi (Gateway_m := Gateway_run sample_env)
                      chat_route sample_payload) sample_start))
     = map call_request
         (http_calls
            (emitted (queryModelGatewayRouteApi (Gateway_m := Gateway_run sample_env)
                        (mkRoute "chat" []) sample_payload) sample_start)).
Proof.
  split; [reflexivity |].
  apply (query_depends_on_route_name_only sample_env chat_route (mkRoute "chat" [])
           sample_payload sample_start sample_start).
  reflexivity.
Defined.

(** A list-routes call, then a get-route call, then an invocation of the
    route: [getUUID] answered "0", "1" and "2", and the first and the last
    action carry different ids. *)
Lemma distinct_invocations_distinct_ids_witness :
  uuids (trace (after (invoke (H0 := Gateway_run sample_env)
                         (Query chat_route sample_payload)) after_get))
  = ["0"; "1"; "2"]
  /\ meta_id (action_of (invoke (H0 := Gateway_run sample_env) (Search (Some "chat")))
                sample_start)
     <> meta_id (action_of (invoke (H0 := Gateway_run sample_env)
                              (Query chat_route sample_payload)) after_get).
Proof.
  split; [vm_compute; reflexivity |].
  apply (distinct_invocations_distinct_ids sample_env
           (Search (Some "chat")) (Query chat_route sample_payload)
           sample_start after_get
           (emitted (invoke (H0 := Gateway_run sample_env) (GetRoute "chat"))
                    after_search)).
  - reflexivity.
  - vm_compute.
    repeat (constructor; [simpl; intuition discriminate |]). constructor.
Defined.

(** ** Sample runs for the request and session theorems *)

(** The same name asked for in two different states. *)
Lemma get_route_request_determines_name_witness :
  map call_request
      (http_calls
         (emitted (getModelGatewayRouteApi (Gateway_m := Gateway_run sample_env) "chat")
                  sample_start))
  = map call_request
      (http_calls
         (emitted (getModelGatewayRouteApi (Gateway_m := Gateway_run sample_env) "chat")
                  after_search))
  /\ "chat" = "chat".
Proof.
  split; [reflexivity |].
  apply (@get_route_request_determines_name SampleWorld sample_env
           "chat" "chat" sample_start after_search).
  reflexivity.
Defined.

(** Two route objects that differ outside [name], in two different states. *)
Lemma query_request_determines_name_and_data_witness :
  map call_request
      (http_calls
         (emitted (queryModelGatewayRouteApi (Gateway_m := Gateway_run sample_env)
                     chat_route sample_payload) sample_start))
  = map call_request
      (http_calls
         (emitted (queryModelGatewayRouteApi (Gateway_m := Gateway_run sample_env)
                     (mkRoute "chat" []) sample_payload) after_get))
  /\ name chat_route = name (mkRoute "chat" [])
  /\ sample_payload = sample_payload.
Proof.
  split; [reflexivity |].
  apply (@query_request_determines_name_and_data SampleWorld sample_env
           chat_route (mkRoute "chat" []) sample_payload sample_payload
           sample_start after_get).
  reflexivity.
Defined.

(** The empty filter, in two different states. *)
Lemma search_request_determines_filter_witness :
  map call_request
      (http_calls
         (emitted (searchModelGatewayRoutesApi (Gateway_m := Gateway_run sample_env)
                     (Some "")) sample_start))
  = map call_request
      (http_calls
         (emitted (searchModelGatewayRoutesApi (Gateway_m := Gateway_run sample_env)
                     (Some "")) after_get))
  /\ Some "" = Some "".
Proof.
  split; [reflexivity |].
  apply (@search_request_determines_filter SampleWorld sample_env
           (Some "") (Some "") sample_start after_get).
  reflexivity.
Defined.

Lemma call_identifies_creator_witness :
  same_creator (Query chat_route sample_payload)
               (Query (mkRoute "chat" []) sample_payload).
Proof.
  apply (@call_identifies_creator SampleWorld sample_env
           (Query chat_route sample_payload)
           (Query (mkRoute "chat" []) sample_payload)
           sample_start after_get).
  reflexivity.
Defined.

Lemma action_type_identifies_creator_witness :
  same_creator (Search None) (Search (Some "chat")).
Proof.
  apply (@action_type_identifies_creator SampleWorld sample_env
           (Search None) (Search (Some "chat")) sample_start after_get).
  reflexivity.
Defined.

(** The sample session: [getUUID] answered "0", "1" and "2", and the three
    actions carry three different ids. *)
Lemma session_ids_unique_witness :
  uuids (trace (execState (session (H0 := Gateway_run sample_env) sample_session)
                          sample_start))
  = ["0"; "1"; "2"]
  /\ NoDup (map meta_id
              (evalState (session (H0 := Gateway_run sample_env) sample_session)
                         sample_start)).
Proof.
  split; [vm_compute; reflexivity |].
  apply (@session_ids_unique SampleWorld sample_env sample_session sample_start).
  vm_compute.
  repeat (constructor; [simpl; intuition discriminate |]). constructor.
Defined.
